(** * net-utils: port probing, port selection, address listing

    A shallow embedding of [packages/wmr/src/lib/net-utils.js] and the
    properties of its exported functions [isPortFree], [getFreePort],
    [getPort], [getServerAddresses] and [addTimestamp]. *)

From Stdlib Require Import ZArith String Ascii List Bool Lia DecimalString.
From Stdlib Require Import DecimalPos.
From Equations Require Import Equations.
Import ListNotations.

Local Open Scope string_scope.
Local Open Scope Z_scope.

(** ** The fragment of JavaScript the file relies on *)

Module JS.

(** Numbers.  The functions below only count ports and attempts, so a number
    is an integer or [NaN] (what [parseInt] yields when it finds no digit).
    [Int z] stands for the double of value [z]; fractions and infinities are
    not represented. *)
Inductive number : Type :=
| Int (z : Z)
| NaN.

(** An [Error] object: the optional [code] property set by the [net] module,
    and the message. *)
Record JsError : Type := mkError {
  err_code : option string;
  err_message : string
}.

(** [new Error(message)] carries no [code]. *)
Definition Error (message : string) : JsError := mkError None message.

(** A settled promise. *)
Inductive promise (A : Type) : Type :=
| Fulfilled (a : A)
| Rejected (e : JsError).
Arguments Fulfilled {A} a.
Arguments Rejected {A} e.

#[warnings="-register-all"]
Inductive value : Type :=
| VUndefined
| VBoolean (b : bool)
| VNumber (n : number)
| VString (s : string)
| VPromise (p : promise value).

Definition promise_map {A B : Type} (f : A -> B) (p : promise A) : promise B :=
  match p with
  | Fulfilled a => Fulfilled (f a)
  | Rejected e => Rejected e
  end.

(** The [typeof] operator. *)
Definition typeof (v : value) : string :=
  match v with
  | VUndefined => "undefined"
  | VBoolean _ => "boolean"
  | VNumber _ => "number"
  | VString _ => "string"
  | VPromise _ => "object"
  end.

(** [ToBoolean]: the test of an [if] or of [?:].  Every object is truthy,
    whatever it holds. *)
Definition ToBoolean (v : value) : bool :=
  match v with
  | VUndefined => false
  | VBoolean b => b
  | VNumber (Int z) => negb (z =? 0)
  | VNumber NaN => false
  | VString s => negb (String.eqb s "")
  | VPromise _ => true
  end.

(** [v !== undefined]. *)
Definition not_undefined (v : value) : bool :=
  match v with
  | VUndefined => false
  | _ => true
  end.

(** [n++] on a number. *)
Definition number_succ (n : number) : number :=
  match n with
  | Int z => Int (z + 1)
  | NaN => NaN
  end.

(** [Number::toString] in radix 10. *)
Definition NumberToString (n : number) : string :=
  match n with
  | Int z => NilZero.string_of_int (Z.to_int z)
  | NaN => "NaN"
  end.

(** *** Completions of a function body *)

Inductive completion (A : Type) : Type :=
| Normal (a : A)
| Throw (e : JsError).
Arguments Normal {A} a.
Arguments Throw {A} e.

Definition bind {A B : Type} (c : completion A) (k : A -> completion B)
  : completion B :=
  match c with
  | Normal a => k a
  | Throw e => Throw e
  end.

Notation "x <- c ;; k" := (bind c (fun x => k))
  (at level 61, c at next level, right associativity).

(** [try { body } catch (err) { handler }]. *)
Definition try_catch {A : Type} (body : completion A)
  (handler : JsError -> completion A) : completion A :=
  match body with
  | Normal a => Normal a
  | Throw e => handler e
  end.

(** An [async] function settles its promise with the completion of its
    body, and [await] turns a settled promise back into a completion. *)
Definition async {A : Type} (body : completion A) : promise A :=
  match body with
  | Normal a => Fulfilled a
  | Throw e => Rejected e
  end.

Definition await {A : Type} (p : promise A) : completion A :=
  match p with
  | Fulfilled a => Normal a
  | Rejected e => Throw e
  end.

(** [o.code !== s] for an error object [o]. *)
Definition code_differs (e : JsError) (s : string) : bool :=
  match err_code e with
  | Some c => negb (String.eqb c s)
  | None => true
  end.

(** *** [parseInt(s, 10)]

    Leading white space is skipped, an optional sign is read, then the
    longest run of decimal digits; without a digit the result is [NaN].
    Strings are byte strings here, so the white space recognised is the
    ASCII one (tab, line feed, vertical tab, form feed, carriage return,
    space). *)

Definition is_white_space (c : ascii) : bool :=
  let n := N_of_ascii c in
  ((9 <=? n) && (n <=? 13) || (n =? 32))%N.

Fixpoint skip_white_space (s : string) : string :=
  match s with
  | String c rest => if is_white_space c then skip_white_space rest else s
  | EmptyString => s
  end.

Definition digit_value (c : ascii) : option Z :=
  let n := N_of_ascii c in
  if ((48 <=? n) && (n <=? 57))%N then Some (Z.of_N n - 48) else None.

(** The longest prefix of decimal digits, read as a number; [acc] is [None]
    until a digit has been seen. *)
Fixpoint parse_digits (s : string) (acc : option Z) : option Z :=
  match s with
  | String c rest =>
      match digit_value c with
      | Some d =>
          parse_digits rest
            (Some (10 * (match acc with Some a => a | None => 0 end) + d))
      | None => acc
      end
  | EmptyString => acc
  end.

Definition parseInt10 (s : string) : number :=
  let s1 := skip_white_space s in
  let '(sign, s2) :=
    match s1 with
    | String "-"%char rest => (-1, rest)
    | String "+"%char rest => (1, rest)
    | _ => (1, s1)
    end in
  match parse_digits s2 None with
  | Some z => Int (sign * z)
  | None => NaN
  end.

(** *** [RegExp.prototype.test] for a one-character literal pattern

    [/\?/] is the pattern made of the single literal character [?]; it has
    no anchor, so the test succeeds when the character occurs at some
    index. *)
Fixpoint RegExp_test_char (c : ascii) (s : string) : bool :=
  match s with
  | String a rest => if Ascii.eqb a c then true else RegExp_test_char c rest
  | EmptyString => false
  end.

End JS.

Import JS.

(** ** The host: what [net], [os] and [process.env] answer *)

(** What [server.listen({ port })] leads to on a fresh server. *)
Inductive listen_outcome : Type :=
| Listening                     (* the listen callback runs *)
| ErrorEvent (e : JsError)      (* the server emits ['error'] *)
| ListenThrows (e : JsError).   (* [listen] itself throws *)

(** An entry of [os.networkInterfaces()]. *)
Record NetworkInterfaceInfo : Type := mkIface {
  family : string;
  address : string;
  internal : bool
}.

Record Host : Type := mkHost {
  net_listen : number -> listen_outcome;
  (** the object returned by [os.networkInterfaces()], as its properties in
      enumeration order *)
  os_networkInterfaces : list (string * list NetworkInterfaceInfo);
  (** [process.env.PORT] *)
  env_PORT : option string
}.

(** ** The module *)

(** The promise built in [isPortFree]: rejected by the ['error'] handler or
    by an exception of the executor, resolved by the callback of
    [server.close]. *)
Definition listen_promise (h : Host) (port : number) : promise unit :=
  match net_listen h port with
  | Listening => Fulfilled tt
  | ErrorEvent e => Rejected e
  | ListenThrows e => Rejected e
  end.

Definition isPortFree (h : Host) (port : number) : promise bool :=
  async (
    try_catch
      (_ <- await (listen_promise h port) ;;
       Normal true)
      (fun err =>
         if code_differs err "EADDRINUSE" then Throw err
         else Normal false)).

(** [inspect] keeps the equation of a test in the context of a branch. *)
Definition inspect {A : Type} (a : A) : {b : A | a = b} := exist _ a eq_refl.

(** The loop stops once [attempts] exceeds 20: what is left of the bound. *)
Definition attempts_left (attempts : Z) : nat := Z.to_nat (21 - attempts).
Arguments attempts_left : simpl never.

(** The loop of [getFreePort] over its three variables.  The test of the
    [if] is the promise returned by [isPortFree], not its awaited value. *)
Equations? getFreePort_loop (h : Host) (found : bool) (attempts : Z)
  (port : number) : number by wf (attempts_left attempts) lt :=
  getFreePort_loop h found attempts port
    with inspect (negb found && (attempts <=? 20)) := {
    | exist _ true _ =>
        if ToBoolean (VPromise (promise_map VBoolean (isPortFree h port)))
        then port
        else getFreePort_loop h found (attempts + 1) (number_succ port)
    | exist _ false _ => port }.
Proof.
  apply andb_prop in e. destruct e as [_ Hle].
  apply Z.leb_le in Hle. unfold attempts_left. lia.
Qed.

(** The argument of [getFreePort]: [number|string]. *)
Inductive port_arg : Type :=
| PortNumber (n : number)
| PortString (s : string).

Definition getFreePort (h : Host) (port : port_arg) : promise number :=
  async (
    let found := false in
    let attempts := 0 in
    let port :=
      match port with
      | PortString s => parseInt10 s
      | PortNumber n => n
      end in
    Normal (getFreePort_loop h found attempts port)).

(** The argument of [getPort]; [opt_port] is [VUndefined] when the property
    is absent. *)
Record PortOptions : Type := mkPortOptions {
  opt_port : value
}.

Section GetPort.

(** [ToNumber] applied to a string is the engine's [StringToNumber]; the
    module only passes its result on, so it is left open here. *)
Variable StringToNumber : string -> number.

(** Unary [+]. *)
Definition ToNumber (v : value) : number :=
  match v with
  | VUndefined => NaN
  | VBoolean b => if b then Int 1 else Int 0
  | VNumber n => n
  | VString s => StringToNumber s
  | VPromise _ => NaN
  end.

(** A value inside a template literal. *)
Definition ToString (v : value) : string :=
  match v with
  | VUndefined => "undefined"
  | VBoolean b => if b then "true" else "false"
  | VNumber n => NumberToString n
  | VString s => s
  | VPromise _ => "[object Promise]"
  end.

(** [typeof options.port === 'number' ? options.port : process.env.PORT] *)
Definition userPort (h : Host) (options : PortOptions) : value :=
  if String.eqb (typeof (opt_port options)) "number" then opt_port options
  else
    match env_PORT h with
    | Some s => VString s
    | None => VUndefined
    end.

Definition port_taken_message (userPort : value) : string :=
  "Another process is already running on port " ++ ToString userPort
    ++ ". Please choose a different port.".

Definition getPort (h : Host) (options : PortOptions) : promise number :=
  async (
    let userPort := userPort h options in
    if not_undefined userPort then
      free <- await (isPortFree h (ToNumber userPort)) ;;
      if free then Normal (ToNumber userPort)
      else Throw (Error (port_taken_message userPort))
    else
      port <- await (getFreePort h (PortNumber (Int 8080))) ;;
      Normal port).

End GetPort.

(** [net.AddressInfo], and the argument [addr] of [getServerAddresses]. *)
Record AddressInfo : Type := mkAddressInfo {
  addr_address : string;
  addr_family : string;
  addr_port : number
}.

Inductive server_address : Type :=
| AddrString (s : string)
| AddrInfo (info : AddressInfo).

(** The second argument of [getServerAddresses]; [https] is optional. *)
Record ServerOptions : Type := mkServerOptions {
  host : string;
  https : option bool
}.

Definition optional_boolean (b : option bool) : value :=
  match b with
  | Some b => VBoolean b
  | None => VUndefined
  end.

(** The template [`${protocol}//${host}:${port}`]. *)
Definition origin (protocol host : string) (port : number) : string :=
  protocol ++ "//" ++ host ++ ":" ++ NumberToString port.

(** The body of the inner [for ... of]: one interface entry, pushed or not. *)
Definition visit_iface (protocol host : string) (port : number)
  (addresses : list string) (iface : NetworkInterfaceInfo) : list string :=
  if String.eqb (family iface) "IPv4"
     && negb (String.eqb (address iface) host)
     && negb (internal iface)
  then addresses ++ [origin protocol (address iface) port]
  else addresses.

(** The body of the outer [for ... in]: the entries of one interface name. *)
Definition visit_name (protocol host : string) (port : number)
  (addresses : list string) (entry : string * list NetworkInterfaceInfo)
  : list string :=
  fold_left (visit_iface protocol host port) (snd entry) addresses.

Definition getServerAddresses (h : Host) (addr : server_address)
  (options : ServerOptions) : list string :=
  match addr with
  | AddrString s => [s]
  | AddrInfo info =>
      let protocol :=
        if ToBoolean (optional_boolean (https options)) then "https:"
        else "http:" in
      let port := addr_port info in
      if negb (String.eqb (host options) "0.0.0.0") then
        [origin protocol (host options) port]
      else
        let ifaces := os_networkInterfaces h in
        let addresses := [origin protocol "localhost" port] in
        fold_left (visit_name protocol (host options) port) ifaces addresses
  end.

Definition addTimestamp (url : string) (time : number) : string :=
  ((url ++ (if RegExp_test_char "?" url then "&" else "?")) ++ "t=")
    ++ NumberToString time.

(** ** Reference behaviour and example hosts *)

(** The bind failure behind a probe, if any. *)
Definition bind_failure (h : Host) (port : number) : option JsError :=
  match net_listen h port with
  | Listening => None
  | ErrorEvent e => Some e
  | ListenThrows e => Some e
  end.

(** A port is in use when binding it fails with [EADDRINUSE]. *)
Definition in_use (h : Host) (port : number) : Prop :=
  exists e, bind_failure h port = Some e /\ err_code e = Some "EADDRINUSE".

(** The specification's FreePortFinder, following its words: probe
    [p], [p+1], ... and accept the first port whose probe is true; after
    [increments] increments the port reached is returned whatever its
    state.  [findFree] allows 20 increments, that is 21 ports. *)
Fixpoint findFree_from (probe : Z -> bool) (increments : nat) (p : Z) : Z :=
  match increments with
  | O => p
  | S k => if probe p then p else findFree_from probe k (p + 1)
  end.

Definition findFree (probe : Z -> bool) (startPort : Z) : Z :=
  findFree_from probe 20 startPort.

(** Not the source: the loop of [getFreePort] with the result of
    [isPortFree] awaited before it is tested, which is what the comment
    above the function describes.  It only serves to locate the defect. *)
Module Awaited.

Equations? getFreePort_loop (h : Host) (found : bool) (attempts : Z)
  (port : number) : completion number by wf (attempts_left attempts) lt :=
  getFreePort_loop h found attempts port
    with inspect (negb found && (attempts <=? 20)) := {
    | exist _ true _ =>
        match await (isPortFree h port) with
        | Normal true => Normal port
        | Normal false =>
            getFreePort_loop h found (attempts + 1) (number_succ port)
        | Throw e => Throw e
        end
    | exist _ false _ => Normal port }.
Proof.
  apply andb_prop in e. destruct e as [_ Hle].
  apply Z.leb_le in Hle. unfold attempts_left. lia.
Qed.

Definition getFreePort (h : Host) (port : port_arg) : promise number :=
  async (
    let found := false in
    let attempts := 0 in
    let port :=
      match port with
      | PortString s => parseInt10 s
      | PortNumber n => n
      end in
    getFreePort_loop h found attempts port).

End Awaited.

Definition EADDRINUSE : JsError :=
  mkError (Some "EADDRINUSE") "listen EADDRINUSE: address already in use".

Definition EACCES : JsError :=
  mkError (Some "EACCES") "listen EACCES: permission denied".

Definition ERR_SOCKET_BAD_PORT : JsError :=
  mkError (Some "ERR_SOCKET_BAD_PORT")
    "options.port should be >= 0 and < 65536.".

(** A host on which exactly the ports of [busy] are taken, ports below 1024
    other than 0 are refused, and numbers that are no port make [listen]
    throw. *)
Definition example_host (busy : Z -> bool)
  (ifaces : list (string * list NetworkInterfaceInfo))
  (env : option string) : Host :=
  {| net_listen := fun port =>
       match port with
       | Int z =>
           if (z <? 0) || (65535 <? z) then ListenThrows ERR_SOCKET_BAD_PORT
           else if busy z then ErrorEvent EADDRINUSE
           else if (0 <? z) && (z <? 1024) then ErrorEvent EACCES
           else Listening
       | NaN => ListenThrows ERR_SOCKET_BAD_PORT
       end;
     os_networkInterfaces := ifaces;
     env_PORT := env |}.

(** A [StringToNumber] for the examples: exact on the empty string, which
    converts to 0, and on an optional sign followed by decimal digits. *)
Fixpoint all_digits (s : string) : bool :=
  match s with
  | String c rest =>
      match digit_value c with
      | Some _ => all_digits rest
      | None => false
      end
  | EmptyString => true
  end.

Definition signed_digits (sign : Z) (s : string) : number :=
  if all_digits s then
    match parse_digits s None with
    | Some z => Int (sign * z)
    | None => NaN
    end
  else NaN.

Definition decimalStringToNumber (s : string) : number :=
  match s with
  | EmptyString => Int 0
  | String "-"%char rest => signed_digits (-1) rest
  | String "+"%char rest => signed_digits 1 rest
  | _ => signed_digits 1 s
  end.


(** The number [getFreePort] starts from: its argument, parsed in base 10
    when it is a string. *)
Definition start_port (port : port_arg) : number :=
  match port with
  | PortString s => parseInt10 s
  | PortNumber n => n
  end.

(** The probe of a host as the boolean the specification works with: true
    when [isPortFree] fulfils with [true]. *)
Definition probe (h : Host) (z : Z) : bool :=
  match isPortFree h (Int z) with
  | Fulfilled true => true
  | _ => false
  end.

(** The ports [from], [from + 1], ..., [from + count - 1]. *)
Definition port_range (from : Z) (count : nat) : list number :=
  map (fun i => Int (from + Z.of_nat i)) (seq 0 count).

(** [process.env.PORT] as a value. *)
Definition env_value (h : Host) : value :=
  match env_PORT h with
  | Some s => VString s
  | None => VUndefined
  end.

(** The scheme chosen from the optional [https] flag. *)
Definition scheme (tls : option bool) : string :=
  match tls with
  | Some true => "https:"
  | _ => "http:"
  end.

(** The interface entries that get a URL when the host is the wildcard:
    IPv4, not internal, and not the wildcard address itself. *)
Definition listed (iface : NetworkInterfaceInfo) : bool :=
  String.eqb (family iface) "IPv4"
  && negb (internal iface)
  && negb (String.eqb (address iface) "0.0.0.0").

(** All entries of the interfaces object, in enumeration order. *)
Definition all_ifaces (h : Host) : list NetworkInterfaceInfo :=
  concat (map snd (os_networkInterfaces h)).

(** The string contains the character [c] at some index. *)
Definition contains (c : ascii) (s : string) : Prop :=
  exists before after : string, s = before ++ String c after.

Definition host_8080_taken : Host :=
  example_host (fun z => z =? 8080) [] None.

Definition host_8080_to_8100_taken : Host :=
  example_host (fun z => (8080 <=? z) && (z <=? 8100)) [] None.

(** Port 9999 is held, and the environment asks for it as [09999]. *)
Definition host_9999_taken : Host :=
  example_host (fun z => z =? 9999) [] (Some "09999").

Definition host_all_free : Host :=
  example_host (fun _ => false) [] None.

Definition example_ifaces : list (string * list NetworkInterfaceInfo) :=
  [ ("lo", [mkIface "IPv4" "127.0.0.1" true; mkIface "IPv6" "::1" true]);
    ("eth0", [mkIface "IPv4" "192.168.1.7" false;
              mkIface "IPv6" "fe80::1" false]);
    ("br0", [mkIface "IPv4" "192.168.1.7" false]) ].

(** ** [supportsSearchParams] *)

(** [String.prototype.split] with a one-character separator: the pieces
    between the occurrences of the separator, empty pieces included. *)
Fixpoint split_char (sep : ascii) (s : string) : list string :=
  match s with
  | EmptyString => [EmptyString]
  | String c rest =>
      if Ascii.eqb c sep then EmptyString :: split_char sep rest
      else
        match split_char sep rest with
        | piece :: pieces => String c piece :: pieces
        | [] => [String c EmptyString]
        end
  end.

(** [a[i]] on an array of strings: [undefined] past its end. *)
Definition array_get (a : list string) (i : nat) : value :=
  match nth_error a i with
  | Some s => VString s
  | None => VUndefined
  end.

(** [>], [===] and [>=] on numbers: false as soon as a side is [NaN]. *)
Definition number_gt (a b : number) : bool :=
  match a, b with
  | Int x, Int y => y <? x
  | _, _ => false
  end.

Definition number_strict_eq (a b : number) : bool :=
  match a, b with
  | Int x, Int y => x =? y
  | _, _ => false
  end.

Definition number_ge (a b : number) : bool :=
  match a, b with
  | Int x, Int y => y <=? x
  | _, _ => false
  end.

(** The constant [supportsSearchParams], as a function of
    [process.versions.node] and of the engine's [StringToNumber]. *)
Definition supportsSearchParams (StringToNumber : string -> number)
  (node_version : string) : bool :=
  let nodeSemver := split_char "." node_version in
  number_gt (ToNumber StringToNumber (array_get nodeSemver 0)) (Int 12)
  || (number_strict_eq
        (ToNumber StringToNumber (array_get nodeSemver 0)) (Int 12)
      && number_ge
           (ToNumber StringToNumber (array_get nodeSemver 1)) (Int 19)).

(** ** Notions used by the further properties *)

(** The number a decimal numeral denotes, read from its first digit on top
    of the digits [acc] already read. *)
Fixpoint uint_value (d : Decimal.uint) (acc : Z) : Z :=
  match d with
  | Decimal.Nil => acc
  | Decimal.D0 l => uint_value l (10 * acc + 0)
  | Decimal.D1 l => uint_value l (10 * acc + 1)
  | Decimal.D2 l => uint_value l (10 * acc + 2)
  | Decimal.D3 l => uint_value l (10 * acc + 3)
  | Decimal.D4 l => uint_value l (10 * acc + 4)
  | Decimal.D5 l => uint_value l (10 * acc + 5)
  | Decimal.D6 l => uint_value l (10 * acc + 6)
  | Decimal.D7 l => uint_value l (10 * acc + 7)
  | Decimal.D8 l => uint_value l (10 * acc + 8)
  | Decimal.D9 l => uint_value l (10 * acc + 9)
  end.

(** The characters of a string. *)
Fixpoint chars (s : string) : list ascii :=
  match s with
  | String c rest => c :: chars rest
  | EmptyString => []
  end.

(** The string does not start with a decimal digit. *)
Definition no_leading_digit (s : string) : Prop :=
  match s with
  | String c _ => digit_value c = None
  | EmptyString => True
  end.

(** What follows the major and minor numbers: nothing, or a dot and the
    rest of the version. *)
Definition version_tail (tail : string) : Prop :=
  tail = "" \/ exists rest : string, tail = String "." rest.

(** Only the loopback interface is up. *)
Definition loopback_only : list (string * list NetworkInterfaceInfo) :=
  [ ("lo", [mkIface "IPv4" "127.0.0.1" true; mkIface "IPv6" "::1" true]) ].

Definition host_loopback_only : Host :=
  example_host (fun _ => false) loopback_only None.

(** Nothing is taken; the environment asks for port 80, then for 3000. *)
Definition host_env_80 : Host :=
  example_host (fun _ => false) [] (Some "80").

Definition host_env_3000 : Host :=
  example_host (fun _ => false) [] (Some "3000").

(** ** [isPortFree] *)

Section Probe.

Variable h : Host.
Variable port : number.

Lemma code_differs_false (e : JsError) (s : string) :
  code_differs e s = false <-> err_code e = Some s.
Proof.
  unfold code_differs. destruct (err_code e) as [c|].
  - rewrite negb_false_iff, String.eqb_eq. split; congruence.
  - split; discriminate.
Qed.

Lemma code_differs_true (e : JsError) (s : string) :
  code_differs e s = true <-> err_code e <> Some s.
Proof.
  rewrite <- code_differs_false.
  destruct (code_differs e s); split; congruence.
Qed.

(** The probe in terms of the bind failure alone. *)
Lemma isPortFree_by_failure :
  isPortFree h port =
  match bind_failure h port with
  | None => Fulfilled true
  | Some e =>
      if code_differs e "EADDRINUSE" then Rejected e else Fulfilled false
  end.
Proof.
  unfold isPortFree, listen_promise, bind_failure.
  destruct (net_listen h port) as [|e|e]; simpl; try reflexivity;
    destruct (code_differs e "EADDRINUSE"); reflexivity.
Qed.

Lemma bind_failure_none :
  bind_failure h port = None <-> net_listen h port = Listening.
Proof.
  unfold bind_failure.
  destruct (net_listen h port); split; congruence.
Qed.

Lemma isPortFree_true_iff :
  isPortFree h port = Fulfilled true <-> net_listen h port = Listening.
Proof.
  rewrite <- bind_failure_none, isPortFree_by_failure.
  destruct (bind_failure h port) as [e|]; [| split; reflexivity].
  destruct (code_differs e "EADDRINUSE"); split; discriminate.
Qed.

Lemma isPortFree_false_iff :
  isPortFree h port = Fulfilled false <-> in_use h port.
Proof.
  rewrite isPortFree_by_failure. unfold in_use.
  destruct (bind_failure h port) as [e|].
  - destruct (code_differs e "EADDRINUSE") eqn:Hc.
    + apply code_differs_true in Hc. split; [discriminate |].
      intros [e' [He Hcode]]. injection He as <-. contradiction.
    + apply code_differs_false in Hc. split; [| reflexivity].
      intros _. exists e. split; [reflexivity | exact Hc].
  - split; [discriminate |]. intros [e [He _]]. discriminate.
Qed.

Lemma isPortFree_rejected_iff (e : JsError) :
  isPortFree h port = Rejected e <->
  bind_failure h port = Some e /\ err_code e <> Some "EADDRINUSE".
Proof.
  rewrite isPortFree_by_failure.
  destruct (bind_failure h port) as [e0|].
  - destruct (code_differs e0 "EADDRINUSE") eqn:Hc.
    + apply code_differs_true in Hc. split.
      * intros He. injection He as <-. split; [reflexivity | exact Hc].
      * intros [He _]. injection He as <-. reflexivity.
    + apply code_differs_false in Hc. split; [discriminate |].
      intros [He Hn]. injection He as <-. contradiction.
  - split; [discriminate |]. intros [He _]. discriminate.
Qed.

(** C4: the probe is true exactly when the bind-then-close cycle succeeds,
    false exactly when the bind fails with the code [EADDRINUSE], and
    rejected with the bind error itself exactly when the bind fails with
    another code (or with none). *)
Theorem isPortFree_outcomes :
  (isPortFree h port = Fulfilled true <-> net_listen h port = Listening) /\
  (isPortFree h port = Fulfilled false <-> in_use h port) /\
  (forall e : JsError,
     isPortFree h port = Rejected e <->
     bind_failure h port = Some e /\ err_code e <> Some "EADDRINUSE").
Proof.
  split; [exact isPortFree_true_iff |].
  split; [exact isPortFree_false_iff | exact isPortFree_rejected_iff].
Qed.

End Probe.

(** ** [getFreePort] *)

(** The test of the [if] in the loop is a promise, hence truthy. *)
Lemma unawaited_probe_truthy (h : Host) (port : number) :
  ToBoolean (VPromise (promise_map VBoolean (isPortFree h port))) = true.
Proof. reflexivity. Qed.

(** Whatever the loop starts with, it hands [port] back unchanged: either
    the guard fails, or the first test breaks out. *)
Lemma getFreePort_loop_id (h : Host) (found : bool) (attempts : Z)
  (port : number) :
  getFreePort_loop h found attempts port = port.
Proof.
  funelim (getFreePort_loop h found attempts port); reflexivity.
Qed.

Lemma getFreePort_start (h : Host) (port : port_arg) :
  getFreePort h port = Fulfilled (start_port port).
Proof.
  unfold getFreePort, start_port. rewrite getFreePort_loop_id.
  destruct port; reflexivity.
Qed.

(** The part of the range property that holds: the result is never outside
    [[P, P + 20]], since it is [P]. *)
Lemma getFreePort_within_bound (h : Host) (P : Z) :
  exists r : Z,
    getFreePort h (PortNumber (Int P)) = Fulfilled (Int r) /\
    P <= r <= P + 20.
Proof.
  exists P. rewrite getFreePort_start. split; [reflexivity | lia].
Qed.

(** C1, at a host where 8080 is taken and 8081 is free: the probe says so,
    the specified search answers 8081, and [getFreePort] answers 8080. *)
Theorem getFreePort_returns_taken_start :
  isPortFree host_8080_taken (Int 8080) = Fulfilled false /\
  isPortFree host_8080_taken (Int 8081) = Fulfilled true /\
  findFree (probe host_8080_taken) 8080 = 8081 /\
  getFreePort host_8080_taken (PortNumber (Int 8080)) = Fulfilled (Int 8080).
Proof.
  repeat split; reflexivity.
Qed.

(** C2, at a host where the 21 ports 8080 to 8100 are all taken: the
    specified fallback is 8100, and [getFreePort] answers 8080. *)
Theorem getFreePort_all_taken :
  Forall (fun p => isPortFree host_8080_to_8100_taken p = Fulfilled false)
    (port_range 8080 21) /\
  findFree (probe host_8080_to_8100_taken) 8080 = 8100 /\
  getFreePort host_8080_to_8100_taken (PortNumber (Int 8080))
    = Fulfilled (Int 8080).
Proof.
  split; [|split].
  - unfold port_range. simpl. repeat constructor.
  - reflexivity.
  - apply getFreePort_start.
Qed.

(** C3: the result of [getFreePort] does not depend on the host: on any two
    hosts it is the same promise, fulfilled with the argument itself, or
    with its base-10 parse when it is a string; the test that guards the
    increment is truthy on every host and port. *)
Theorem getFreePort_host_independent (h1 h2 : Host) (port : port_arg) :
  getFreePort h1 port = getFreePort h2 port /\
  getFreePort h1 port = Fulfilled (start_port port) /\
  (forall (h : Host) (p : number),
     ToBoolean (VPromise (promise_map VBoolean (isPortFree h p))) = true).
Proof.
  rewrite !getFreePort_start. repeat split.
Qed.

(** With the probe awaited the loop does move on: 8081 at the first host.
    At the second host it stops on 8101, one past the last port probed. *)
Lemma awaited_getFreePort_next :
  Awaited.getFreePort host_8080_taken (PortNumber (Int 8080))
    = Fulfilled (Int 8081).
Proof. reflexivity. Qed.

Lemma awaited_getFreePort_all_taken :
  Awaited.getFreePort host_8080_to_8100_taken (PortNumber (Int 8080))
    = Fulfilled (Int 8101).
Proof. vm_compute. reflexivity. Qed.

(** A string argument is parsed, not probed either. *)
Lemma getFreePort_string_examples :
  getFreePort host_8080_taken (PortString "8080") = Fulfilled (Int 8080) /\
  getFreePort host_8080_taken (PortString " 8080px") = Fulfilled (Int 8080) /\
  getFreePort host_8080_taken (PortString "port") = Fulfilled NaN.
Proof. repeat split; reflexivity. Qed.

(** ** [getPort] *)

Section Resolve.

Variable StringToNumber : string -> number.
Variable h : Host.

Lemma userPort_number (options : PortOptions) (n : number) :
  opt_port options = VNumber n -> userPort h options = VNumber n.
Proof.
  intros Hp. unfold userPort. rewrite Hp. reflexivity.
Qed.

Lemma userPort_env (options : PortOptions) :
  typeof (opt_port options) <> "number" -> userPort h options = env_value h.
Proof.
  intros Hty. unfold userPort, env_value.
  destruct (String.eqb_spec (typeof (opt_port options)) "number");
    [contradiction | reflexivity].
Qed.

(** [await] undoes [async]: returning an awaited promise settles alike. *)
Lemma async_await {A : Type} (p : promise A) :
  async (x <- await p ;; Normal x) = p.
Proof. destruct p; reflexivity. Qed.

(** A requested port that is in use: the call is rejected with the message
    built from the request as it was written. *)
Lemma getPort_taken (options : PortOptions) :
  not_undefined (userPort h options) = true ->
  in_use h (ToNumber StringToNumber (userPort h options)) ->
  getPort StringToNumber h options =
  Rejected (Error (port_taken_message (userPort h options))).
Proof.
  intros Hdef Huse. unfold getPort. rewrite Hdef.
  apply isPortFree_false_iff in Huse. rewrite Huse. reflexivity.
Qed.

(** A requested port that can be bound is returned. *)
Lemma getPort_free (options : PortOptions) :
  not_undefined (userPort h options) = true ->
  net_listen h (ToNumber StringToNumber (userPort h options)) = Listening ->
  getPort StringToNumber h options =
  Fulfilled (ToNumber StringToNumber (userPort h options)).
Proof.
  intros Hdef Hfree. unfold getPort. rewrite Hdef.
  apply isPortFree_true_iff in Hfree. rewrite Hfree. reflexivity.
Qed.

(** A bind failure of another kind on the requested port is passed on. *)
Lemma getPort_bind_error (options : PortOptions) (e : JsError) :
  not_undefined (userPort h options) = true ->
  bind_failure h (ToNumber StringToNumber (userPort h options)) = Some e ->
  err_code e <> Some "EADDRINUSE" ->
  getPort StringToNumber h options = Rejected e.
Proof.
  intros Hdef Hfail Hcode. unfold getPort. rewrite Hdef.
  rewrite (proj2 (isPortFree_rejected_iff _ _ e) (conj Hfail Hcode)).
  reflexivity.
Qed.

(** Nothing requested: the call is the search from 8080. *)
Lemma getPort_unrequested (options : PortOptions) :
  not_undefined (userPort h options) = false ->
  getPort StringToNumber h options = getFreePort h (PortNumber (Int 8080)).
Proof.
  intros Hundef. unfold getPort. rewrite Hundef. apply async_await.
Qed.

(** C5: when the requested port, given as the number [options.port] or,
    failing that, as the string of the environment, is in use, [getPort] is
    rejected with an [Error] whose message is "Another process is already
    running on port <request>. Please choose a different port."; no other
    port is returned. *)
Theorem getPort_requested_port_taken (options : PortOptions) :
  (forall n : number,
     opt_port options = VNumber n ->
     in_use h n ->
     getPort StringToNumber h options =
     Rejected (Error ("Another process is already running on port "
                        ++ NumberToString n
                        ++ ". Please choose a different port."))) /\
  (forall s : string,
     typeof (opt_port options) <> "number" ->
     env_PORT h = Some s ->
     in_use h (StringToNumber s) ->
     getPort StringToNumber h options =
     Rejected (Error ("Another process is already running on port "
                        ++ s ++ ". Please choose a different port."))).
Proof.
  split.
  - intros n Hp Huse.
    pose proof (userPort_number options n Hp) as Hu.
    rewrite getPort_taken; rewrite Hu; auto.
  - intros s Hty Henv Huse.
    pose proof (userPort_env options Hty) as Hu.
    unfold env_value in Hu. rewrite Henv in Hu.
    rewrite getPort_taken; rewrite Hu; auto.
Qed.

(** C6: [getPort] takes [options.port] as the request whenever it is a
    number, 0 included: the call is then decided by the probe of that very
    number (returned when it can be bound, refused with the "Another
    process" error when it is in use, rejected with the bind error
    otherwise), whatever the environment holds.  When [options.port] is not
    a number the request is [process.env.PORT], decided in the same way by
    the probe of the number it converts to; when that is undefined too
    nothing is requested and the call is the search from 8080.  With
    [{port: 0}] and port 0 bindable, the result is 0. *)
Theorem getPort_zero_is_a_request :
  (forall (options : PortOptions) (n : number),
     opt_port options = VNumber n ->
     userPort h options = VNumber n /\
     (net_listen h n = Listening ->
      getPort StringToNumber h options = Fulfilled n) /\
     (in_use h n ->
      getPort StringToNumber h options =
      Rejected (Error ("Another process is already running on port "
                         ++ NumberToString n
                         ++ ". Please choose a different port."))) /\
     (forall e : JsError,
        bind_failure h n = Some e ->
        err_code e <> Some "EADDRINUSE" ->
        getPort StringToNumber h options = Rejected e)) /\
  (forall (options : PortOptions) (s : string),
     typeof (opt_port options) <> "number" ->
     env_PORT h = Some s ->
     userPort h options = VString s /\
     (net_listen h (StringToNumber s) = Listening ->
      getPort StringToNumber h options = Fulfilled (StringToNumber s)) /\
     (in_use h (StringToNumber s) ->
      getPort StringToNumber h options =
      Rejected (Error ("Another process is already running on port "
                         ++ s ++ ". Please choose a different port."))) /\
     (forall e : JsError,
        bind_failure h (StringToNumber s) = Some e ->
        err_code e <> Some "EADDRINUSE" ->
        getPort StringToNumber h options = Rejected e)) /\
  (forall options : PortOptions,
     typeof (opt_port options) <> "number" ->
     env_PORT h = None ->
     userPort h options = VUndefined /\
     getPort StringToNumber h options
     = getFreePort h (PortNumber (Int 8080))) /\
  (net_listen h (Int 0) = Listening ->
   getPort StringToNumber h (mkPortOptions (VNumber (Int 0)))
     = Fulfilled (Int 0)).
Proof.
  split; [| split; [| split]].
  - intros options n Hp.
    pose proof (userPort_number options n Hp) as Hu.
    split; [exact Hu |]. split; [| split].
    + intros Hfree. rewrite getPort_free; rewrite Hu; auto.
    + intros Huse. rewrite getPort_taken; rewrite Hu; auto.
    + intros e Hfail Hcode. apply getPort_bind_error; rewrite ?Hu; auto.
  - intros options s Hty Henv.
    pose proof (userPort_env options Hty) as Hu.
    unfold env_value in Hu. rewrite Henv in Hu.
    split; [exact Hu |]. split; [| split].
    + intros Hfree. rewrite getPort_free; rewrite Hu; auto.
    + intros Huse. rewrite getPort_taken; rewrite Hu; auto.
    + intros e Hfail Hcode. apply getPort_bind_error; rewrite ?Hu; auto.
  - intros options Hty Henv.
    pose proof (userPort_env options Hty) as Hu.
    unfold env_value in Hu. rewrite Henv in Hu.
    split; [exact Hu |].
    apply getPort_unrequested. rewrite Hu. reflexivity.
  - intros Hfree. apply (getPort_free (mkPortOptions (VNumber (Int 0))));
      [reflexivity | exact Hfree].
Qed.

(** C7: when [options.port] is not a number and [process.env.PORT] is
    undefined, [getPort] is [getFreePort(8080)]; with 8080 bindable the
    result is 8080. *)
Theorem getPort_defaults_to_8080 (options : PortOptions) :
  typeof (opt_port options) <> "number" ->
  env_PORT h = None ->
  getPort StringToNumber h options = getFreePort h (PortNumber (Int 8080)) /\
  (net_listen h (Int 8080) = Listening ->
   getPort StringToNumber h options = Fulfilled (Int 8080)).
Proof.
  intros Hty Henv.
  assert (Hcall : getPort StringToNumber h options
                  = getFreePort h (PortNumber (Int 8080))).
  { apply getPort_unrequested. rewrite (userPort_env options Hty).
    unfold env_value. rewrite Henv. reflexivity. }
  split; [exact Hcall |].
  intros _. rewrite Hcall. apply getFreePort_start.
Qed.

End Resolve.

(** ** [getServerAddresses] *)

Section Addresses.

Variable protocol : string.
Variable port : number.

Let url (iface : NetworkInterfaceInfo) : string :=
  origin protocol (address iface) port.

Lemma protocol_scheme (tls : option bool) :
  (if ToBoolean (optional_boolean tls) then "https:" else "http:")
  = scheme tls.
Proof. destruct tls as [[|]|]; reflexivity. Qed.

Lemma visit_iface_listed (addresses : list string)
  (iface : NetworkInterfaceInfo) :
  visit_iface protocol "0.0.0.0" port addresses iface =
  (addresses ++ (if listed iface then [url iface] else []))%list.
Proof.
  unfold visit_iface, listed, url.
  destruct (String.eqb (family iface) "IPv4"),
    (String.eqb (address iface) "0.0.0.0"),
    (internal iface); simpl; try reflexivity;
    now rewrite app_nil_r.
Qed.

(** The inner loop appends the URLs of the listed entries, in order. *)
Lemma inner_loop_appends (entries : list NetworkInterfaceInfo) :
  forall addresses : list string,
    fold_left (visit_iface protocol "0.0.0.0" port) entries addresses =
    (addresses ++ map url (filter listed entries))%list.
Proof.
  induction entries as [|iface entries IH]; intros addresses; simpl.
  - now rewrite app_nil_r.
  - rewrite IH, visit_iface_listed, <- app_assoc.
    destruct (listed iface); reflexivity.
Qed.

(** So does the outer loop, over the entries of all names. *)
Lemma outer_loop_appends
  (ifaces : list (string * list NetworkInterfaceInfo)) :
  forall addresses : list string,
    fold_left (visit_name protocol "0.0.0.0" port) ifaces addresses =
    (addresses ++ map url (filter listed (concat (map snd ifaces))))%list.
Proof.
  induction ifaces as [|entry ifaces IH]; intros addresses; simpl.
  - now rewrite app_nil_r.
  - rewrite IH. unfold visit_name. rewrite inner_loop_appends.
    rewrite filter_app, map_app, <- app_assoc. reflexivity.
Qed.

End Addresses.


Lemma getServerAddresses_wildcard_example :
  getServerAddresses (example_host (fun _ => false) example_ifaces None)
    (AddrInfo (mkAddressInfo "0.0.0.0" "IPv4" (Int 3000)))
    (mkServerOptions "0.0.0.0" (Some true))
  = ["https://localhost:3000"; "https://192.168.1.7:3000";
     "https://192.168.1.7:3000"].
Proof. reflexivity. Qed.

(** C9: a string address is returned alone; with a host other than the
    wildcard a structured address yields the single URL made of the scheme,
    the host as given and the port. *)
Theorem getServerAddresses_single :
  (forall (h : Host) (s : string) (options : ServerOptions),
     getServerAddresses h (AddrString s) options = [s]) /\
  (forall (h : Host) (info : AddressInfo) (options : ServerOptions),
     host options <> "0.0.0.0" ->
     getServerAddresses h (AddrInfo info) options =
     [scheme (https options) ++ "//" ++ host options ++ ":"
        ++ NumberToString (addr_port info)]) /\
  (forall h : Host,
     getServerAddresses h
       (AddrInfo (mkAddressInfo "127.0.0.1" "IPv4" (Int 3000)))
       (mkServerOptions "127.0.0.1" (Some false))
     = ["http://127.0.0.1:3000"]).
Proof.
  split; [reflexivity |]. split; [| reflexivity].
  intros h info options Hhost. unfold getServerAddresses.
  rewrite protocol_scheme.
  destruct (String.eqb_spec (host options) "0.0.0.0") as [He|_];
    [contradiction |].
  reflexivity.
Qed.

(** ** [addTimestamp] *)

Lemma RegExp_test_char_contains (c : ascii) (s : string) :
  RegExp_test_char c s = true <-> contains c s.
Proof.
  unfold contains. induction s as [|a s IH]; simpl.
  - split; [discriminate |].
    intros [[|b before] [after Heq]]; discriminate.
  - destruct (Ascii.eqb_spec a c) as [->|Hne].
    + split; [| reflexivity].
      intros _. exists "", s. reflexivity.
    + rewrite IH. split.
      * intros [before [after ->]]. exists (String a before), after.
        reflexivity.
      * intros [[|b before] [after Heq]]; simpl in Heq;
          injection Heq as Ha Hs; [congruence |].
        exists before, after. exact Hs.
Qed.

Lemma append_assoc (a b c : string) : (a ++ b) ++ c = a ++ (b ++ c).
Proof.
  induction a as [|x a IH]; simpl; [reflexivity | now rewrite IH].
Qed.

(** C10: [addTimestamp] is a total function on strings and numbers; its
    result is the URL followed by "&t=" and the timestamp when the URL
    contains a question mark, by "?t=" and the timestamp when it does not,
    whatever else the URL is made of. *)
Theorem addTimestamp_separator (url : string) (time : number) :
  (contains "?" url ->
   addTimestamp url time = url ++ "&t=" ++ NumberToString time) /\
  (~ contains "?" url ->
   addTimestamp url time = url ++ "?t=" ++ NumberToString time).
Proof.
  unfold addTimestamp. rewrite <- RegExp_test_char_contains.
  destruct (RegExp_test_char "?" url).
  - split; [| congruence].
    intros _. now rewrite !append_assoc.
  - split; [congruence |].
    intros _. now rewrite !append_assoc.
Qed.

Lemma addTimestamp_plain :
  addTimestamp "http://x/y" (Int 5) = "http://x/y?t=5".
Proof. reflexivity. Qed.

Lemma addTimestamp_query :
  addTimestamp "http://x/y?a=1" (Int 5) = "http://x/y?a=1&t=5".
Proof. reflexivity. Qed.

(** ** [getFreePort] on strings *)

Section DecimalStrings.

Lemma of_uint_acc_value (d : Decimal.uint) :
  forall acc : positive,
    Z.pos (Pos.of_uint_acc d acc) = uint_value d (Z.pos acc).
Proof.
  induction d; intros acc; cbn [Pos.of_uint_acc uint_value];
    try reflexivity; rewrite IHd; f_equal; lia.
Qed.

Lemma of_uint_value (d : Decimal.uint) :
  Z.of_N (Pos.of_uint d) = uint_value d 0.
Proof.
  induction d; cbn [Pos.of_uint uint_value Z.of_N]; try reflexivity;
    try exact IHd; apply of_uint_acc_value.
Qed.

Lemma to_uint_value (p : positive) : uint_value (Pos.to_uint p) 0 = Z.pos p.
Proof.
  rewrite <- of_uint_value, DecimalPos.Unsigned.of_to. reflexivity.
Qed.

(** Reading the digits of a numeral, then going on with what follows. *)
Lemma parse_digits_numeral (d : Decimal.uint) (rest : string) :
  forall acc : Z,
    parse_digits (NilEmpty.string_of_uint d ++ rest) (Some acc) =
    parse_digits rest (Some (uint_value d acc)).
Proof.
  induction d; intros acc; simpl; try reflexivity; apply IHd.
Qed.

Lemma parse_digits_stop (rest : string) (acc : option Z) :
  no_leading_digit rest -> parse_digits rest acc = acc.
Proof.
  destruct rest as [|c rest]; simpl; [reflexivity |].
  intros ->. reflexivity.
Qed.

(** The first digit of a numeral starts the reading at 0. *)
Lemma parse_digits_numeral_start (d : Decimal.uint) (rest : string) :
  d <> Decimal.Nil ->
  parse_digits (NilEmpty.string_of_uint d ++ rest) None =
  parse_digits rest (Some (uint_value d 0)).
Proof.
  destruct d; intros Hd; try contradiction; simpl;
    apply parse_digits_numeral.
Qed.

Lemma skip_white_space_prefix (ws s : string) :
  (forall c, In c (chars ws) -> is_white_space c = true) ->
  skip_white_space (ws ++ s) = skip_white_space s.
Proof.
  induction ws as [|c ws IH]; simpl; intros Hws; [reflexivity |].
  rewrite (Hws c (or_introl eq_refl)). apply IH.
  intros c' Hc'. apply Hws. right. exact Hc'.
Qed.

(** A numeral of a positive number starts with a digit from 1 to 9, which
    is neither white space nor a sign. *)
Lemma numeral_head (p : positive) :
  exists (c : ascii) (tail : string),
    NilEmpty.string_of_uint (Pos.to_uint p) = String c tail /\
    is_white_space c = false /\ c <> "-"%char /\ c <> "+"%char.
Proof.
  pose proof (DecimalPos.Unsigned.to_uint_nonnil p) as Hnil.
  destruct (Pos.to_uint p); try contradiction; simpl;
    eexists; eexists; (split; [reflexivity |]);
    (split; [reflexivity |]); split; discriminate.
Qed.

Lemma parseInt10_positive (p : positive) (rest : string) :
  no_leading_digit rest ->
  parseInt10 (NilEmpty.string_of_uint (Pos.to_uint p) ++ rest)
  = Int (Z.pos p).
Proof.
  intros Hrest. unfold parseInt10.
  destruct (numeral_head p) as [c [tail [Hs [Hws [Hminus Hplus]]]]].
  assert (Hskip : skip_white_space
                    (NilEmpty.string_of_uint (Pos.to_uint p) ++ rest)
                  = NilEmpty.string_of_uint (Pos.to_uint p) ++ rest).
  { rewrite Hs. simpl. rewrite Hws. reflexivity. }
  rewrite Hskip.
  assert (Hsign :
    (match NilEmpty.string_of_uint (Pos.to_uint p) ++ rest with
     | String "-"%char r => (-1, r)
     | String "+"%char r => (1, r)
     | _ => (1, NilEmpty.string_of_uint (Pos.to_uint p) ++ rest)
     end) = (1, NilEmpty.string_of_uint (Pos.to_uint p) ++ rest)).
  { rewrite Hs. simpl.
    destruct c as [[|] [|] [|] [|] [|] [|] [|] [|]]; try reflexivity;
      exfalso; (apply Hminus; reflexivity) || (apply Hplus; reflexivity). }
  rewrite Hsign.
  rewrite parse_digits_numeral_start
    by apply DecimalPos.Unsigned.to_uint_nonnil.
  rewrite (parse_digits_stop rest _ Hrest), to_uint_value.
  reflexivity.
Qed.

Lemma parseInt10_NumberToString (z : Z) (rest : string) :
  no_leading_digit rest ->
  parseInt10 (NumberToString (Int z) ++ rest) = Int z.
Proof.
  intros Hrest. destruct z as [|p|p].
  - unfold parseInt10. simpl.
    rewrite (parse_digits_stop rest _ Hrest). reflexivity.
  - unfold NumberToString. simpl Z.to_int.
    unfold NilZero.string_of_int, NilZero.string_of_uint.
    pose proof (DecimalPos.Unsigned.to_uint_nonnil p) as Hnil.
    destruct (Pos.to_uint p) eqn:Hp; try contradiction;
      rewrite <- Hp; apply parseInt10_positive; exact Hrest.
  - unfold NumberToString. simpl Z.to_int.
    unfold NilZero.string_of_int, NilZero.string_of_uint.
    pose proof (DecimalPos.Unsigned.to_uint_nonnil p) as Hnil.
    assert (Hstr : (match Pos.to_uint p with
                    | Decimal.Nil => "0"
                    | _ => NilEmpty.string_of_uint (Pos.to_uint p)
                    end) = NilEmpty.string_of_uint (Pos.to_uint p)).
    { destruct (Pos.to_uint p); try contradiction; reflexivity. }
    rewrite Hstr. unfold parseInt10. simpl.
    rewrite parse_digits_numeral_start by exact Hnil.
    rewrite (parse_digits_stop rest _ Hrest), to_uint_value.
    reflexivity.
Qed.

End DecimalStrings.

Lemma parseInt10_skips_white_space (ws s : string) :
  (forall c, In c (chars ws) -> is_white_space c = true) ->
  parseInt10 (ws ++ s) = parseInt10 s.
Proof.
  intros Hws. unfold parseInt10.
  rewrite (skip_white_space_prefix ws s Hws). reflexivity.
Qed.

Lemma chars_skip_white_space (s : string) (c : ascii) :
  In c (chars (skip_white_space s)) -> In c (chars s).
Proof.
  induction s as [|a s IH]; simpl; [tauto |].
  destruct (is_white_space a); simpl; [right; apply IH; assumption | tauto].
Qed.

Lemma parse_digits_no_digit (s : string) (acc : option Z) :
  (forall c, In c (chars s) -> digit_value c = None) ->
  parse_digits s acc = acc.
Proof.
  intros Hs. apply parse_digits_stop.
  destruct s as [|c s]; simpl; [exact I |].
  apply Hs. left. reflexivity.
Qed.

Lemma parseInt10_no_digit (s : string) :
  (forall c, In c (chars s) -> digit_value c = None) ->
  parseInt10 s = NaN.
Proof.
  intros Hs. unfold parseInt10.
  assert (Hskip : forall c, In c (chars (skip_white_space s)) ->
                            digit_value c = None).
  { intros c Hc. apply Hs, chars_skip_white_space, Hc. }
  destruct (skip_white_space s) as [|a rest] eqn:Hs1; [reflexivity |].
  assert (Hrest : forall c, In c (chars rest) -> digit_value c = None).
  { intros c Hc. apply Hskip. right. exact Hc. }
  assert (Hnone : parse_digits (String a rest) None = None)
    by (apply parse_digits_no_digit; exact Hskip).
  assert (Hnone' : parse_digits rest None = None)
    by (apply parse_digits_no_digit; exact Hrest).
  destruct a as [[|] [|] [|] [|] [|] [|] [|] [|]];
    cbv beta iota; rewrite ?Hnone, ?Hnone'; reflexivity.
Qed.

(** X1: a string that holds the decimal writing of an integer, possibly
    after white space and before text that does not start with a digit, is
    the same request to [getFreePort] as the number itself. *)
Theorem getFreePort_decimal_string (h : Host) (z : Z) (ws rest : string) :
  (forall c, In c (chars ws) -> is_white_space c = true) ->
  no_leading_digit rest ->
  getFreePort h (PortString (ws ++ NumberToString (Int z) ++ rest))
  = getFreePort h (PortNumber (Int z)).
Proof.
  intros Hws Hrest. rewrite !getFreePort_start. unfold start_port.
  rewrite (parseInt10_skips_white_space ws _ Hws).
  rewrite (parseInt10_NumberToString z rest Hrest). reflexivity.
Qed.

(** X2: a string without any decimal digit (the empty string, a word, a
    lone sign) does not make [getFreePort] fail: it is fulfilled with
    [NaN]. *)
Theorem getFreePort_string_without_digit (h : Host) (s : string) :
  (forall c, In c (chars s) -> digit_value c = None) ->
  getFreePort h (PortString s) = Fulfilled NaN.
Proof.
  intros Hs. rewrite getFreePort_start. unfold start_port.
  rewrite (parseInt10_no_digit s Hs). reflexivity.
Qed.

(** ** [getPort]: what a call can come to *)

Section ResolveMore.

Variable StringToNumber : string -> number.
Variable h : Host.

(** The three ways the probe of the requested port can end, and what
    [getPort] makes of each. *)
Lemma getPort_requested_cases (options : PortOptions) :
  not_undefined (userPort h options) = true ->
  let p := ToNumber StringToNumber (userPort h options) in
  (net_listen h p = Listening /\
   getPort StringToNumber h options = Fulfilled p) \/
  (in_use h p /\
   getPort StringToNumber h options
   = Rejected (Error (port_taken_message (userPort h options)))) \/
  (exists e, bind_failure h p = Some e /\
             err_code e <> Some "EADDRINUSE" /\
             getPort StringToNumber h options = Rejected e).
Proof.
  intros Hdef p.
  destruct (bind_failure h p) as [e|] eqn:Hfail.
  - destruct (code_differs e "EADDRINUSE") eqn:Hcode.
    + apply code_differs_true in Hcode. right. right. exists e.
      split; [reflexivity |]. split; [exact Hcode |].
      apply getPort_bind_error; assumption.
    + apply code_differs_false in Hcode. right. left.
      assert (Huse : in_use h p) by (exists e; split; assumption).
      split; [exact Huse |]. apply getPort_taken; assumption.
  - apply bind_failure_none in Hfail. left.
    split; [exact Hfail |]. apply getPort_free; assumption.
Qed.

Lemma not_undefined_false (v : value) :
  not_undefined v = false -> v = VUndefined.
Proof. destruct v; simpl; congruence. Qed.

(** X3: an [options.port] that is not a number, such as the string form
    that the type of [options] allows, is not used at all: the call is the
    call without [port]. *)
Theorem getPort_ignores_non_number (options : PortOptions) :
  typeof (opt_port options) <> "number" ->
  getPort StringToNumber h options
  = getPort StringToNumber h (mkPortOptions VUndefined).
Proof.
  intros Hty. unfold getPort.
  rewrite (userPort_env h options Hty).
  rewrite (userPort_env h (mkPortOptions VUndefined)) by discriminate.
  reflexivity.
Qed.

(** X4: a bind failure other than [EADDRINUSE] on the requested port
    (permission denied, bad port) rejects [getPort] with that very error,
    not with the "Another process" message, for a request by number and for
    a request by the environment. *)
Theorem getPort_passes_bind_error_on (options : PortOptions) (e : JsError) :
  err_code e <> Some "EADDRINUSE" ->
  (forall n : number,
     opt_port options = VNumber n ->
     bind_failure h n = Some e ->
     getPort StringToNumber h options = Rejected e) /\
  (forall s : string,
     typeof (opt_port options) <> "number" ->
     env_PORT h = Some s ->
     bind_failure h (StringToNumber s) = Some e ->
     getPort StringToNumber h options = Rejected e).
Proof.
  intros Hcode. split.
  - intros n Hp Hfail.
    pose proof (userPort_number h options n Hp) as Hu.
    apply getPort_bind_error; rewrite ?Hu; auto.
  - intros s Hty Henv Hfail.
    pose proof (userPort_env h options Hty) as Hu.
    unfold env_value in Hu. rewrite Henv in Hu.
    apply getPort_bind_error; rewrite ?Hu; auto.
Qed.

(** X5: a requested port that can be bound is the result: the number given
    in [options.port], or the number that the string of the environment
    converts to (a number, not the string). *)
Theorem getPort_returns_requested_port (options : PortOptions) :
  (forall n : number,
     opt_port options = VNumber n ->
     net_listen h n = Listening ->
     getPort StringToNumber h options = Fulfilled n) /\
  (forall s : string,
     typeof (opt_port options) <> "number" ->
     env_PORT h = Some s ->
     net_listen h (StringToNumber s) = Listening ->
     getPort StringToNumber h options = Fulfilled (StringToNumber s)).
Proof.
  split.
  - intros n Hp Hfree.
    pose proof (userPort_number h options n Hp) as Hu.
    rewrite getPort_free; rewrite Hu; auto.
  - intros s Hty Henv Hfree.
    pose proof (userPort_env h options Hty) as Hu.
    unfold env_value in Hu. rewrite Henv in Hu.
    rewrite getPort_free; rewrite Hu; auto.
Qed.

(** X6: whenever [getPort] is fulfilled, its value is either the requested
    port, which could be bound when it was probed, or 8080 when no port was
    requested; a request is never answered with another port. *)
Theorem getPort_fulfilled_inv (options : PortOptions) (n : number) :
  getPort StringToNumber h options = Fulfilled n ->
  (not_undefined (userPort h options) = true /\
   n = ToNumber StringToNumber (userPort h options) /\
   net_listen h n = Listening) \/
  (userPort h options = VUndefined /\ n = Int 8080).
Proof.
  intros Hres.
  destruct (not_undefined (userPort h options)) eqn:Hdef.
  - left. split; [reflexivity |].
    destruct (getPort_requested_cases options Hdef)
      as [[Hfree Hget] | [[_ Hget] | [e [_ [_ Hget]]]]];
      rewrite Hget in Hres; try discriminate.
    injection Hres as <-. split; [reflexivity | exact Hfree].
  - right. split; [apply not_undefined_false; exact Hdef |].
    rewrite (getPort_unrequested StringToNumber h options Hdef) in Hres.
    rewrite getFreePort_start in Hres. injection Hres as <-. reflexivity.
Qed.

(** X7: [getPort] is rejected only for a requested port, and then either
    because that port is in use, with the "Another process" error, or with
    the bind error of the probe; without a request it is never rejected. *)
Theorem getPort_rejected_inv (options : PortOptions) (e : JsError) :
  getPort StringToNumber h options = Rejected e ->
  not_undefined (userPort h options) = true /\
  ((in_use h (ToNumber StringToNumber (userPort h options)) /\
    e = Error (port_taken_message (userPort h options))) \/
   (bind_failure h (ToNumber StringToNumber (userPort h options)) = Some e /\
    err_code e <> Some "EADDRINUSE")).
Proof.
  intros Hres.
  destruct (not_undefined (userPort h options)) eqn:Hdef.
  - split; [reflexivity |].
    destruct (getPort_requested_cases options Hdef)
      as [[_ Hget] | [[Huse Hget] | [e' [Hfail [Hcode Hget]]]]];
      rewrite Hget in Hres; try discriminate.
    + injection Hres as <-. left. split; [exact Huse | reflexivity].
    + injection Hres as <-. right. split; assumption.
  - rewrite (getPort_unrequested StringToNumber h options Hdef) in Hres.
    rewrite getFreePort_start in Hres. discriminate.
Qed.

(** X8: without a request the result is 8080 on every host, also when 8080
    is in use or cannot be bound at all: the probe started by
    [getFreePort] does not decide anything. *)
Theorem getPort_default_whatever_the_host (options : PortOptions) :
  typeof (opt_port options) <> "number" ->
  env_PORT h = None ->
  getPort StringToNumber h options = Fulfilled (Int 8080).
Proof.
  intros Hty Henv. rewrite getPort_unrequested.
  - apply getFreePort_start.
  - rewrite (userPort_env h options Hty). unfold env_value.
    rewrite Henv. reflexivity.
Qed.

End ResolveMore.

(** ** [getServerAddresses]: the list as a whole *)

Lemma length_append (a b : string) :
  String.length (a ++ b) = (String.length a + String.length b)%nat.
Proof.
  induction a as [|c a IH]; simpl; [reflexivity | now rewrite IH].
Qed.

Lemma append_cancel_l (p a b : string) : p ++ a = p ++ b -> a = b.
Proof.
  induction p as [|c p IH]; simpl; intros Heq; [exact Heq |].
  injection Heq as Heq. apply IH. exact Heq.
Qed.

Lemma append_cancel_r (t : string) :
  forall a b : string, a ++ t = b ++ t -> a = b.
Proof.
  induction a as [|x a IH]; intros [|y b] Heq; simpl in Heq.
  - reflexivity.
  - apply (f_equal String.length) in Heq. simpl in Heq.
    rewrite length_append in Heq. lia.
  - apply (f_equal String.length) in Heq. simpl in Heq.
    rewrite length_append in Heq. lia.
  - injection Heq as -> Heq. f_equal. apply IH. exact Heq.
Qed.

(** Two origins with the same scheme and port have the same host. *)
Lemma origin_host_inj (protocol a b : string) (port : number) :
  origin protocol a port = origin protocol b port -> a = b.
Proof.
  unfold origin. intros Heq.
  apply append_cancel_l in Heq. apply (append_cancel_l "//") in Heq.
  apply append_cancel_r in Heq. exact Heq.
Qed.

(** Both branches of [getServerAddresses] on a structured address. *)
Lemma getServerAddresses_info (h : Host) (info : AddressInfo)
  (options : ServerOptions) :
  getServerAddresses h (AddrInfo info) options =
  if String.eqb (host options) "0.0.0.0" then
    origin (scheme (https options)) "localhost" (addr_port info)
      :: map (fun iface =>
                origin (scheme (https options)) (address iface)
                  (addr_port info))
           (filter listed (all_ifaces h))
  else [origin (scheme (https options)) (host options) (addr_port info)].
Proof.
  unfold getServerAddresses, all_ifaces. rewrite protocol_scheme.
  destruct (String.eqb_spec (host options) "0.0.0.0") as [He|Hne];
    [| reflexivity].
  cbv beta iota zeta. simpl negb. cbv iota. rewrite He.
  rewrite outer_loop_appends. reflexivity.
Qed.

Lemma filter_none {A : Type} (f : A -> bool) (l : list A) :
  (forall x, In x l -> f x = false) -> filter f l = [].
Proof.
  induction l as [|x l IH]; simpl; intros Hl; [reflexivity |].
  rewrite (Hl x (or_introl eq_refl)). apply IH.
  intros y Hy. apply Hl. right. exact Hy.
Qed.

(** X9: [getServerAddresses] never returns an empty list. *)
Theorem getServerAddresses_not_empty (h : Host) (addr : server_address)
  (options : ServerOptions) :
  getServerAddresses h addr options <> [].
Proof.
  destruct addr as [s|info]; [discriminate |].
  rewrite getServerAddresses_info.
  destruct (String.eqb (host options) "0.0.0.0"); discriminate.
Qed.

(** X10: for a structured address, the URL of the wildcard address
    [0.0.0.0] is never in the result, whatever the host option and the
    interfaces are. *)
Theorem getServerAddresses_never_wildcard (h : Host) (info : AddressInfo)
  (options : ServerOptions) :
  ~ In (origin (scheme (https options)) "0.0.0.0" (addr_port info))
      (getServerAddresses h (AddrInfo info) options).
Proof.
  rewrite getServerAddresses_info.
  destruct (String.eqb_spec (host options) "0.0.0.0") as [He|Hne].
  - intros [Hhead | Htail].
    + apply origin_host_inj in Hhead. discriminate.
    + apply in_map_iff in Htail. destruct Htail as [iface [Hurl Hin]].
      apply origin_host_inj in Hurl.
      apply filter_In in Hin. destruct Hin as [_ Hlisted].
      unfold listed in Hlisted. rewrite Hurl in Hlisted.
      rewrite String.eqb_refl, andb_false_r in Hlisted. discriminate.
  - intros [Hhead | []]. apply origin_host_inj in Hhead.
    apply Hne. exact Hhead.
Qed.

(** X11: with the wildcard host, when every interface entry is internal or
    is not IPv4 (no interface at all included), the result is the localhost
    URL alone. *)
Theorem getServerAddresses_localhost_only (h : Host) (info : AddressInfo)
  (tls : option bool) :
  (forall iface, In iface (all_ifaces h) ->
     internal iface = true \/ family iface <> "IPv4") ->
  getServerAddresses h (AddrInfo info) (mkServerOptions "0.0.0.0" tls)
  = [origin (scheme tls) "localhost" (addr_port info)].
Proof.
  intros Hnone. rewrite getServerAddresses_info. simpl.
  rewrite filter_none; [reflexivity |].
  intros iface Hin. unfold listed.
  destruct (Hnone iface Hin) as [Hint | Hfam].
  - rewrite Hint. simpl. now rewrite andb_false_r.
  - destruct (String.eqb_spec (family iface) "IPv4");
      [contradiction | reflexivity].
Qed.

(** ** [addTimestamp]: the result as a URL *)

(** The test of [addTimestamp] succeeds on its own results. *)
Lemma addTimestamp_test (url : string) (time : number) :
  RegExp_test_char "?" (addTimestamp url time) = true.
Proof.
  apply RegExp_test_char_contains. unfold addTimestamp.
  destruct (RegExp_test_char "?" url) eqn:Htest.
  - apply RegExp_test_char_contains in Htest.
    destruct Htest as [before [after ->]].
    exists before, (after ++ "&t=" ++ NumberToString time).
    rewrite !append_assoc. reflexivity.
  - exists url, ("t=" ++ NumberToString time).
    rewrite !append_assoc. reflexivity.
Qed.

(** X12: the result of [addTimestamp] always contains a question mark. *)
Theorem addTimestamp_has_query (url : string) (time : number) :
  contains "?" (addTimestamp url time).
Proof.
  apply RegExp_test_char_contains, addTimestamp_test.
Qed.

(** X13: stamping a URL a second time adds a second [t] parameter after an
    ampersand; the first one is kept, not replaced. *)
Theorem addTimestamp_twice (url : string) (t1 t2 : number) :
  addTimestamp (addTimestamp url t1) t2
  = addTimestamp url t1 ++ "&t=" ++ NumberToString t2.
Proof.
  unfold addTimestamp at 1. rewrite addTimestamp_test.
  rewrite !append_assoc. reflexivity.
Qed.

(** ** [supportsSearchParams] *)

Section SearchParams.

Variable StringToNumber : string -> number.

Lemma split_char_whole (sep : ascii) (s : string) :
  RegExp_test_char sep s = false -> split_char sep s = [s].
Proof.
  induction s as [|c s IH]; simpl; [reflexivity |].
  destruct (Ascii.eqb c sep); [discriminate |].
  intros Hs. rewrite (IH Hs). reflexivity.
Qed.

Lemma split_char_first (sep : ascii) (a b : string) :
  RegExp_test_char sep a = false ->
  split_char sep (a ++ String sep b) = a :: split_char sep b.
Proof.
  induction a as [|c a IH]; simpl.
  - intros _. rewrite Ascii.eqb_refl. reflexivity.
  - destruct (Ascii.eqb c sep); [discriminate |].
    intros Ha. rewrite (IH Ha). reflexivity.
Qed.

Lemma not_contains_test (c : ascii) (s : string) :
  ~ contains c s -> RegExp_test_char c s = false.
Proof.
  intros Hno. destruct (RegExp_test_char c s) eqn:Htest; [| reflexivity].
  apply RegExp_test_char_contains in Htest. contradiction.
Qed.

Lemma append_nil_r (s : string) : s ++ "" = s.
Proof.
  induction s as [|c s IH]; simpl; [reflexivity | now rewrite IH].
Qed.

Lemma split_char_head (major tail : string) :
  ~ contains "." major -> version_tail tail ->
  exists pieces, split_char "." (major ++ tail) = major :: pieces /\
                 (tail = "" -> pieces = []) /\
                 (forall rest, tail = String "." rest ->
                               pieces = split_char "." rest).
Proof.
  intros Hmajor [-> | [rest ->]].
  - exists []. rewrite append_nil_r.
    rewrite split_char_whole by (apply not_contains_test; exact Hmajor).
    repeat split. intros rest Hrest. discriminate.
  - exists (split_char "." rest).
    rewrite split_char_first by (apply not_contains_test; exact Hmajor).
    repeat split; [discriminate |].
    intros rest' Heq. injection Heq as <-. reflexivity.
Qed.

(** X14: on a version [major.minor] or [major.minor.rest] whose first two
    parts convert to the integers [M] and [m], [supportsSearchParams] is
    true exactly from 12.19 on: [M > 12], or [M = 12] and [m >= 19]. *)
Theorem supportsSearchParams_from_12_19 (major minor tail : string)
  (M m : Z) :
  ~ contains "." major ->
  ~ contains "." minor ->
  version_tail tail ->
  StringToNumber major = Int M ->
  StringToNumber minor = Int m ->
  (supportsSearchParams StringToNumber (major ++ "." ++ minor ++ tail) = true
   <-> 12 < M \/ (M = 12 /\ 19 <= m)).
Proof.
  intros Hmajor Hminor Htail HM Hm. unfold supportsSearchParams.
  change (major ++ "." ++ minor ++ tail)
    with (major ++ String "." (minor ++ tail)).
  rewrite split_char_first by (apply not_contains_test; exact Hmajor).
  destruct (split_char_head minor tail Hminor Htail) as [pieces [-> _]].
  unfold array_get. simpl nth_error. simpl ToNumber.
  rewrite HM, Hm. simpl number_gt. simpl number_strict_eq.
  simpl number_ge.
  rewrite orb_true_iff, andb_true_iff, Z.ltb_lt, Z.eqb_eq, Z.leb_le.
  reflexivity.
Qed.

(** X15: on a version without any dot, the minor number is [undefined] and
    compares false: the result is true exactly when the version converts
    to an integer above 12, so 12 alone is refused. *)
Theorem supportsSearchParams_major_only (version : string) (M : Z) :
  ~ contains "." version ->
  StringToNumber version = Int M ->
  (supportsSearchParams StringToNumber version = true <-> 12 < M).
Proof.
  intros Hno HM. unfold supportsSearchParams.
  rewrite split_char_whole by (apply not_contains_test; exact Hno).
  unfold array_get. simpl nth_error. simpl ToNumber.
  rewrite HM. simpl number_gt. simpl number_strict_eq. simpl number_ge.
  rewrite andb_false_r, orb_false_r. apply Z.ltb_lt.
Qed.

(** X16: when the part before the first dot does not convert to a number
    (it converts to [NaN]), the result is false whatever follows. *)
Theorem supportsSearchParams_unreadable_major (major tail : string) :
  ~ contains "." major ->
  version_tail tail ->
  StringToNumber major = NaN ->
  supportsSearchParams StringToNumber (major ++ tail) = false.
Proof.
  intros Hmajor Htail HM. unfold supportsSearchParams.
  destruct (split_char_head major tail Hmajor Htail) as [pieces [-> _]].
  unfold array_get. simpl nth_error. simpl ToNumber.
  rewrite HM. reflexivity.
Qed.

End SearchParams.

(** ** The statements at concrete hosts *)

Lemma in_use_8080 : in_use host_8080_taken (Int 8080).
Proof. exists EADDRINUSE. split; reflexivity. Defined.

Lemma in_use_9999 : in_use host_9999_taken (Int 9999).
Proof. exists EADDRINUSE. split; reflexivity. Defined.

(** Port 3000 is free, 8080 is taken, and binding 80 is refused. *)
Lemma isPortFree_outcomes_witness :
  isPortFree host_8080_taken (Int 3000) = Fulfilled true /\
  isPortFree host_8080_taken (Int 8080) = Fulfilled false /\
  isPortFree host_8080_taken (Int 80) = Rejected EACCES.
Proof.
  split; [|split].
  - destruct (isPortFree_outcomes host_8080_taken (Int 3000)) as [[_ Hfree] _].
    apply Hfree. reflexivity.
  - destruct (isPortFree_outcomes host_8080_taken (Int 8080))
      as [_ [[_ Hused] _]].
    apply Hused. exact in_use_8080.
  - destruct (isPortFree_outcomes host_8080_taken (Int 80)) as [_ [_ Herr]].
    apply (proj2 (Herr EACCES)). split; [reflexivity | discriminate].
Defined.

(** Port 9999 requested by number, then by the environment. *)
Lemma getPort_requested_port_taken_witness :
  getPort decimalStringToNumber host_9999_taken
    (mkPortOptions (VNumber (Int 9999)))
  = Rejected (Error "Another process is already running on port 9999. Please choose a different port.") /\
  getPort decimalStringToNumber host_9999_taken (mkPortOptions VUndefined)
  = Rejected (Error "Another process is already running on port 09999. Please choose a different port.").
Proof.
  split.
  - apply (proj1 (getPort_requested_port_taken decimalStringToNumber
                    host_9999_taken (mkPortOptions (VNumber (Int 9999))))
             (Int 9999)); [reflexivity | exact in_use_9999].
  - apply (proj2 (getPort_requested_port_taken decimalStringToNumber
                    host_9999_taken (mkPortOptions VUndefined))
             "09999"); [discriminate | reflexivity | exact in_use_9999].
Defined.

Lemma getPort_zero_is_a_request_witness :
  (* 0 is requested and bindable, while the environment asks for 3000 *)
  getPort decimalStringToNumber host_env_3000
    (mkPortOptions (VNumber (Int 0))) = Fulfilled (Int 0) /\
  (* 9999 is requested by number and is taken *)
  getPort decimalStringToNumber host_9999_taken
    (mkPortOptions (VNumber (Int 9999)))
  = Rejected (Error "Another process is already running on port 9999. Please choose a different port.") /\
  (* 80 is requested by number and may not be bound *)
  getPort decimalStringToNumber host_all_free
    (mkPortOptions (VNumber (Int 80))) = Rejected EACCES /\
  (* the port is a string: the environment decides, here 3000 *)
  getPort decimalStringToNumber host_env_3000
    (mkPortOptions (VString "4000")) = Fulfilled (Int 3000) /\
  (* nothing in the options: the environment asks for 9999, taken *)
  getPort decimalStringToNumber host_9999_taken (mkPortOptions VUndefined)
  = Rejected (Error "Another process is already running on port 09999. Please choose a different port.") /\
  (* nothing requested at all *)
  getPort decimalStringToNumber host_all_free (mkPortOptions VUndefined)
  = getFreePort host_all_free (PortNumber (Int 8080)).
Proof.
  split; [| split; [| split; [| split; [| split]]]].
  - destruct (getPort_zero_is_a_request decimalStringToNumber host_env_3000)
      as [_ [_ [_ Hzero]]].
    apply Hzero. reflexivity.
  - destruct (getPort_zero_is_a_request decimalStringToNumber
                host_9999_taken) as [Hnum _].
    destruct (Hnum (mkPortOptions (VNumber (Int 9999))) (Int 9999) eq_refl)
      as [_ [_ [Htaken _]]].
    apply Htaken. exact in_use_9999.
  - destruct (getPort_zero_is_a_request decimalStringToNumber host_all_free)
      as [Hnum _].
    destruct (Hnum (mkPortOptions (VNumber (Int 80))) (Int 80) eq_refl)
      as [_ [_ [_ Herr]]].
    apply Herr; [reflexivity | discriminate].
  - destruct (getPort_zero_is_a_request decimalStringToNumber host_env_3000)
      as [_ [Henv _]].
    assert (Hty : typeof (opt_port (mkPortOptions (VString "4000")))
                  <> "number") by discriminate.
    destruct (Henv (mkPortOptions (VString "4000")) "3000" Hty eq_refl)
      as [_ [Hfree _]].
    apply Hfree. reflexivity.
  - destruct (getPort_zero_is_a_request decimalStringToNumber
                host_9999_taken) as [_ [Henv _]].
    assert (Hty : typeof (opt_port (mkPortOptions VUndefined)) <> "number")
      by discriminate.
    destruct (Henv (mkPortOptions VUndefined) "09999" Hty eq_refl)
      as [_ [_ [Htaken _]]].
    apply Htaken. exact in_use_9999.
  - destruct (getPort_zero_is_a_request decimalStringToNumber host_all_free)
      as [_ [_ [Hnone _]]].
    assert (Hty : typeof (opt_port (mkPortOptions VUndefined)) <> "number")
      by discriminate.
    destruct (Hnone (mkPortOptions VUndefined) Hty eq_refl) as [_ Hcall].
    exact Hcall.
Defined.

Lemma getPort_defaults_to_8080_witness :
  getPort decimalStringToNumber host_all_free (mkPortOptions VUndefined)
  = Fulfilled (Int 8080).
Proof.
  destruct (getPort_defaults_to_8080 decimalStringToNumber host_all_free
              (mkPortOptions VUndefined)) as [_ Hfree];
    [discriminate | reflexivity |].
  apply Hfree. reflexivity.
Defined.

Lemma getServerAddresses_single_witness :
  getServerAddresses host_all_free
    (AddrInfo (mkAddressInfo "::" "IPv6" (Int 8080)))
    (mkServerOptions "example.test" (Some true))
  = ["https://example.test:8080"].
Proof.
  destruct getServerAddresses_single as [_ [Hone _]].
  apply (Hone host_all_free (mkAddressInfo "::" "IPv6" (Int 8080))
           (mkServerOptions "example.test" (Some true))).
  discriminate.
Defined.

Lemma addTimestamp_separator_witness :
  addTimestamp "http://x/y?a=1" (Int 5) = "http://x/y?a=1&t=5" /\
  addTimestamp "http://x/y" (Int 5) = "http://x/y?t=5".
Proof.
  split.
  - apply (proj1 (addTimestamp_separator "http://x/y?a=1" (Int 5))).
    exists "http://x/y", "a=1". reflexivity.
  - apply (proj2 (addTimestamp_separator "http://x/y" (Int 5))).
    intros Hq. apply RegExp_test_char_contains in Hq. discriminate.
Defined.

(** ** The further properties at concrete inputs *)

Lemma no_dot (s : string) :
  RegExp_test_char "." s = false -> ~ contains "." s.
Proof.
  intros Htest Hc. apply RegExp_test_char_contains in Hc. congruence.
Defined.

Lemma getFreePort_decimal_string_witness :
  getFreePort host_8080_taken (PortString " 8080px")
  = getFreePort host_8080_taken (PortNumber (Int 8080)).
Proof.
  apply (getFreePort_decimal_string host_8080_taken 8080 " " "px").
  - intros c [<- | []]. reflexivity.
  - reflexivity.
Defined.

Lemma getFreePort_string_without_digit_witness :
  getFreePort host_8080_taken (PortString "-x") = Fulfilled NaN.
Proof.
  apply (getFreePort_string_without_digit host_8080_taken "-x").
  intros c [<- | [<- | []]]; reflexivity.
Defined.

Lemma getPort_ignores_non_number_witness :
  getPort decimalStringToNumber host_all_free (mkPortOptions (VString "3000"))
  = getPort decimalStringToNumber host_all_free (mkPortOptions VUndefined).
Proof.
  apply (getPort_ignores_non_number decimalStringToNumber host_all_free
           (mkPortOptions (VString "3000"))).
  discriminate.
Defined.

Lemma getPort_passes_bind_error_on_witness :
  getPort decimalStringToNumber host_all_free
    (mkPortOptions (VNumber (Int 80))) = Rejected EACCES /\
  getPort decimalStringToNumber host_env_80 (mkPortOptions VUndefined)
  = Rejected EACCES.
Proof.
  split.
  - assert (Hcode : err_code EACCES <> Some "EADDRINUSE") by discriminate.
    apply (proj1 (getPort_passes_bind_error_on decimalStringToNumber
                    host_all_free (mkPortOptions (VNumber (Int 80)))
                    EACCES Hcode) (Int 80)); reflexivity.
  - assert (Hcode : err_code EACCES <> Some "EADDRINUSE") by discriminate.
    apply (proj2 (getPort_passes_bind_error_on decimalStringToNumber
                    host_env_80 (mkPortOptions VUndefined)
                    EACCES Hcode) "80");
      [discriminate | reflexivity | reflexivity].
Defined.

Lemma getPort_returns_requested_port_witness :
  getPort decimalStringToNumber host_all_free
    (mkPortOptions (VNumber (Int 3000))) = Fulfilled (Int 3000) /\
  getPort decimalStringToNumber host_env_3000 (mkPortOptions VUndefined)
  = Fulfilled (Int 3000).
Proof.
  split.
  - apply (proj1 (getPort_returns_requested_port decimalStringToNumber
                    host_all_free (mkPortOptions (VNumber (Int 3000))))
             (Int 3000)); reflexivity.
  - apply (proj2 (getPort_returns_requested_port decimalStringToNumber
                    host_env_3000 (mkPortOptions VUndefined)) "3000");
      [discriminate | reflexivity | reflexivity].
Defined.

Lemma getPort_fulfilled_inv_witness :
  (not_undefined
     (userPort host_env_3000 (mkPortOptions VUndefined)) = true /\
   Int 3000 = ToNumber decimalStringToNumber
                (userPort host_env_3000 (mkPortOptions VUndefined)) /\
   net_listen host_env_3000 (Int 3000) = Listening) \/
  (userPort host_env_3000 (mkPortOptions VUndefined) = VUndefined /\
   Int 3000 = Int 8080).
Proof.
  apply (getPort_fulfilled_inv decimalStringToNumber host_env_3000
           (mkPortOptions VUndefined) (Int 3000)).
  reflexivity.
Defined.

Lemma getPort_rejected_inv_witness :
  not_undefined
    (userPort host_9999_taken (mkPortOptions (VNumber (Int 9999)))) = true /\
  ((in_use host_9999_taken
      (ToNumber decimalStringToNumber
         (userPort host_9999_taken (mkPortOptions (VNumber (Int 9999))))) /\
    Error "Another process is already running on port 9999. Please choose a different port."
    = Error (port_taken_message
               (userPort host_9999_taken
                  (mkPortOptions (VNumber (Int 9999)))))) \/
   (bind_failure host_9999_taken
      (ToNumber decimalStringToNumber
         (userPort host_9999_taken (mkPortOptions (VNumber (Int 9999)))))
    = Some (Error "Another process is already running on port 9999. Please choose a different port.") /\
    err_code (Error "Another process is already running on port 9999. Please choose a different port.")
    <> Some "EADDRINUSE")).
Proof.
  apply (getPort_rejected_inv decimalStringToNumber host_9999_taken
           (mkPortOptions (VNumber (Int 9999)))).
  reflexivity.
Defined.

(** Port 8080 is taken, and it is the answer all the same. *)
Lemma getPort_default_whatever_the_host_witness :
  in_use host_8080_taken (Int 8080) /\
  getPort decimalStringToNumber host_8080_taken (mkPortOptions VUndefined)
  = Fulfilled (Int 8080).
Proof.
  split; [exact in_use_8080 |].
  apply (getPort_default_whatever_the_host decimalStringToNumber
           host_8080_taken (mkPortOptions VUndefined));
    [discriminate | reflexivity].
Defined.

Lemma getServerAddresses_localhost_only_witness :
  getServerAddresses host_loopback_only
    (AddrInfo (mkAddressInfo "0.0.0.0" "IPv4" (Int 8080)))
    (mkServerOptions "0.0.0.0" None)
  = ["http://localhost:8080"].
Proof.
  apply (getServerAddresses_localhost_only host_loopback_only
           (mkAddressInfo "0.0.0.0" "IPv4" (Int 8080)) None).
  intros iface [<- | [<- | []]]; left; reflexivity.
Defined.

Lemma supportsSearchParams_from_12_19_witness :
  supportsSearchParams decimalStringToNumber "12.19.0" = true.
Proof.
  apply (supportsSearchParams_from_12_19 decimalStringToNumber
           "12" "19" ".0" 12 19);
    [apply no_dot; reflexivity | apply no_dot; reflexivity
    | right; exists "0"; reflexivity | reflexivity | reflexivity
    | right; lia].
Defined.

Lemma supportsSearchParams_major_only_witness :
  supportsSearchParams decimalStringToNumber "13" = true.
Proof.
  apply (supportsSearchParams_major_only decimalStringToNumber "13" 13);
    [apply no_dot; reflexivity | reflexivity | lia].
Defined.

Lemma supportsSearchParams_unreadable_major_witness :
  supportsSearchParams decimalStringToNumber "v14.15.1" = false.
Proof.
  apply (supportsSearchParams_unreadable_major decimalStringToNumber
           "v14" ".15.1");
    [apply no_dot; reflexivity | right; exists "15.1"; reflexivity
    | reflexivity].
Defined.
